(** * The homework-tutor chat handler (src/main.py), embedded and verified

    The program is one Python module: a start-up section that reads the
    API credential, a handful of agent profiles, the guardrail function
    and the two chat hooks [on_chat_start] and [on_message].

    The remote model, the agent runner and the chat front end are
    external collaborators.  They are represented by a [World] of
    oracles (what the remote calls return or raise) and by a
    chronological trace of the effects the module performs on them.

    Line 125 of the file as shipped reads [try:git].  What the
    interpreter makes of it when the module is imported is
    [import_module]; the hooks are embedded as the statements they are
    indented as, with line 125 read as the header of the [try]
    statement. *)

From Stdlib Require Import String Ascii NArith List Bool Lia.
From stdpp Require Import base strings gmap list.
Import ListNotations.

Local Open Scope N_scope.

(* ===================================================================== *)
(** ** Python text *)
(* ===================================================================== *)

(** A Python [str] is a sequence of Unicode code points. *)
Definition str : Type := list N.

(** Literals of the source are written as Rocq strings (their UTF-8
    bytes) and decoded to code points.  [pending] is the code point
    under construction and [k] the number of continuation bytes still
    expected. *)
Fixpoint utf8_go (bs : list N) (pending : N) (k : nat) : str :=
  match bs with
  | [] => []
  | b :: rest =>
      match k with
      | O =>
          if b <? 128 then b :: utf8_go rest 0 O
          else if b <? 224 then utf8_go rest (N.land b 31) 1%nat
          else if b <? 240 then utf8_go rest (N.land b 15) 2%nat
          else utf8_go rest (N.land b 7) 3%nat
      | S k' =>
          let cp := pending * 64 + N.land b 63 in
          match k' with
          | O => cp :: utf8_go rest 0 O
          | S _ => utf8_go rest cp k'
          end
      end
  end.

Definition py (s : string) : str :=
  utf8_go (List.map N_of_ascii (list_ascii_of_string s)) 0 O.

(** The newline of the escape [\n]. *)
Definition NL : N := 10.

(** [str.isspace] for one character: the code points CPython's
    [_PyUnicode_IsWhitespace] accepts. *)
Definition isspace (c : N) : bool :=
  ((9 <=? c) && (c <=? 13)) || ((28 <=? c) && (c <=? 32))
  || (c =? 133) || (c =? 160) || (c =? 5760)
  || ((8192 <=? c) && (c <=? 8202))
  || (c =? 8232) || (c =? 8233) || (c =? 8239) || (c =? 8287)
  || (c =? 12288).

Fixpoint lstrip (s : str) : str :=
  match s with
  | [] => []
  | c :: rest => if isspace c then lstrip rest else s
  end.

Definition rstrip (s : str) : str := rev (lstrip (rev s)).

(** [s.strip()] with no argument: leading and trailing whitespace removed. *)
Definition strip (s : str) : str := rstrip (lstrip s).

(** [s.strip() == ""] *)
Definition blank (s : str) : bool :=
  match strip s with [] => true | _ :: _ => false end.

(** The concatenation of a list of fragments, in order. *)
Definition join (frags : list str) : str := List.concat frags.


(* ===================================================================== *)
(** ** Data model *)
(* ===================================================================== *)

(** One entry of the conversation history: the dict
    [{"role": ..., "content": ...}]. *)
Record Turn : Type := mkTurn { role : string; content : str }.

Definition user_turn (text : str) : Turn := mkTurn "user" text.
Definition assistant_turn (text : str) : Turn := mkTurn "assistant" text.

Definition History : Type := list Turn.

Definition is_assistant (t : Turn) : bool := String.eqb (role t) "assistant".

Definition assistant_turns (h : History) : nat := length (List.filter is_assistant h).

(** [class HomeworkOutput(BaseModel)] *)
Record HomeworkOutput : Type :=
  mkHomeworkOutput { is_homework : bool; reasoning : str }.

(** [GuardrailFunctionOutput] of the agents library. *)
Record GuardrailFunctionOutput : Type :=
  mkGuardrailFunctionOutput
    { output_info : HomeworkOutput; tripwire_triggered : bool }.

(** A raised Python exception object: its class name and [str(e)]. *)
Record PyException : Type :=
  mkException { exc_class : string; exc_str : str }.

(** The guardrail functions an agent can declare; the module defines one. *)
Inductive GuardrailFunction : Type :=
| homework_guardrail_fn.

Record InputGuardrail : Type :=
  mkInputGuardrail { guardrail_function : GuardrailFunction }.

(** An agent profile: the keyword arguments the module passes to [Agent]. *)
#[warnings="-register-all"]
Inductive Agent : Type :=
| mkAgent (name : string) (instructions : string)
          (handoff_description : option string)
          (output_type : option string)
          (model : option string)
          (handoffs : list Agent)
          (input_guardrails : list InputGuardrail).

Definition agent_name (a : Agent) : string :=
  match a with mkAgent n _ _ _ _ _ _ => n end.
Definition agent_handoffs (a : Agent) : list Agent :=
  match a with mkAgent _ _ _ _ _ hs _ => hs end.
Definition agent_input_guardrails (a : Agent) : list InputGuardrail :=
  match a with mkAgent _ _ _ _ _ _ gs => gs end.

Definition MODEL_NAME : string := "gemini-2.0-flash".

Definition guardrail_agent : Agent :=
  mkAgent "Guardrail check"
          "Check if the user is asking about homework."
          None (Some "HomeworkOutput"%string) (Some MODEL_NAME) [] [].

Definition math_tutor_agent : Agent :=
  mkAgent "Math Tutor"
          "You provide help with math problems. Explain your reasoning at each step and include examples."
          (Some "Specialist agent for math questions"%string)
          None None [] [].

Definition history_tutor_agent : Agent :=
  mkAgent "History Tutor"
          "You provide assistance with historical queries. Explain important events and context clearly."
          (Some "Specialist agent for historical questions"%string)
          None None [] [].

Definition triage_agent : Agent :=
  mkAgent "Triage Agent"
          "You determine which agent to use based on the user's homework question."
          None None None
          [history_tutor_agent; math_tutor_agent]
          [mkInputGuardrail homework_guardrail_fn].

(** An event of [result.stream_events()].  Only a raw response event
    has a [data] attribute; the handler looks for the text-delta one. *)
Inductive ResponseStreamEvent : Type :=
| ResponseTextDeltaEvent (delta : str)
| ResponseOtherEvent (kind : string).

Inductive StreamEvent : Type :=
| RawResponsesStreamEvent (data : ResponseStreamEvent)
| RunItemStreamEvent (item : string)
| AgentUpdatedStreamEvent (new_agent : string).

Definition event_type (event : StreamEvent) : string :=
  match event with
  | RawResponsesStreamEvent _ => "raw_response_event"
  | RunItemStreamEvent _ => "run_item_stream_event"
  | AgentUpdatedStreamEvent _ => "agent_updated_stream_event"
  end.

(** What a streamed run does once started: the events it yields, the
    exception that ends the iteration (if any) and [result.final_output]
    ([None] when no final output was produced). *)
Record RunResultStreaming : Type :=
  mkRunResultStreaming
    { stream_events : list StreamEvent;
      stream_error : option PyException;
      final_output : option str }.

(** A [cl.Message] object. *)
Record Message : Type := mkMessage { msg_content : str; msg_author : str }.

Inductive LogLevel : Type := INFO | ERROR.

(** The pieces of a formatted log line: literal text and interpolated
    objects. *)
Inductive LogPart : Type :=
| Text (s : str)
| Obj (o : HomeworkOutput).

(** Everything the module does to its collaborators, in the order it
    does it. *)
Inductive Effect : Type :=
| SessionSet (key : string) (value : History)
| HistoryAppend (t : Turn)
| MessageSend (m : Message)
| MessageStreamToken (token : str)
| MessageUpdate (m : Message)
| RunnerRun (agent : string) (input : History)
| RunnerRunStreamed (agent : string) (input : History)
| Logging (level : LogLevel) (line : list LogPart).

Definition Trace : Type := list Effect.

(* ===================================================================== *)
(** ** The world outside the module *)
(* ===================================================================== *)

Inductive Res (A : Type) : Type :=
| Ok (a : A)
| Raise (e : PyException).
Arguments Ok {A} a.
Arguments Raise {A} e.

(** [guardrail_model n input] is what the [n]-th run of the guardrail
    agent in the session yields on [input]: a structured verdict, or an
    exception.  The index lets two runs on the same input differ, as a
    remote language model may.  [triage_model input] is the behaviour of
    the streamed triage run on [input]. *)
Record World : Type :=
  mkWorld
    { guardrail_model : nat -> History -> Res HomeworkOutput;
      triage_model : History -> RunResultStreaming }.

(* ===================================================================== *)
(** ** Session state and the handler monad *)
(* ===================================================================== *)

(** [st_history] is the list object stored under ["history"] in
    [cl.user_session]; [st_msg] is the [cl.Message] object most recently
    constructed by a hook; [st_trace] is the effect trace, oldest
    first. *)
Record State : Type :=
  mkState { st_history : History; st_msg : Message; st_trace : Trace }.

(** A computation reads and updates the state and either returns or
    raises; what it did to the state before raising stays done.  The
    calls into the remote model are the ones that can raise; the
    rendering calls of the front end ([send], [stream_token], [update])
    and the logging calls are taken to return. *)
Definition M (A : Type) : Type := State -> Res A * State.

Definition ret {A} (a : A) : M A := fun st => (Ok a, st).

Definition bind {A B} (c : M A) (k : A -> M B) : M B :=
  fun st =>
    match c st with
    | (Ok a, st') => k a st'
    | (Raise e, st') => (Raise e, st')
    end.

Definition raise {A} (e : PyException) : M A := fun st => (Raise e, st).

(** [try: body  except Exception as e: handler e], for a body whose
    faults are all instances of [Exception].  The class test of the
    clause is written out in [try_except_Exception] below. *)
Definition try_except {A} (body : M A) (handler : PyException -> M A) : M A :=
  fun st =>
    match body st with
    | (Ok a, st') => (Ok a, st')
    | (Raise e, st') => handler e st'
    end.

Declare Scope py_scope.
Delimit Scope py_scope with py.
Notation "x <- c ;; k" := (bind c (fun x => k))
  (at level 100, c at next level, k at level 200, right associativity) : py_scope.
Notation "c ;; k" := (bind c (fun _ => k))
  (at level 100, k at level 200, right associativity) : py_scope.
Local Open Scope py_scope.

Definition emit (e : Effect) : M unit :=
  fun st => (Ok tt, mkState (st_history st) (st_msg st) (st_trace st ++ [e])).

Definition get_history : M History := fun st => (Ok (st_history st), st).

(** [cl.user_session.set("history", value)] *)
Definition session_set_history (value : History) : M unit :=
  fun st =>
    (Ok tt, mkState value (st_msg st) (st_trace st ++ [SessionSet "history" value])).

(** [history.append(t)]: the session's list object itself grows. *)
Definition history_append (t : Turn) : M unit :=
  fun st =>
    (Ok tt, mkState (st_history st ++ [t]) (st_msg st) (st_trace st ++ [HistoryAppend t])).

(** [cl.Message(content=..., author=...)]: a new message object. *)
Definition Message_new (m : Message) : M unit :=
  fun st => (Ok tt, mkState (st_history st) m (st_trace st)).

(** [msg.content = c] *)
Definition set_content (c : str) : M unit :=
  fun st =>
    (Ok tt, mkState (st_history st) (mkMessage c (msg_author (st_msg st))) (st_trace st)).

(** [await msg.send()] *)
Definition msg_send : M unit :=
  fun st => emit (MessageSend (st_msg st)) st.

(** [await msg.stream_token(token)]: the token is appended to the
    message's content and pushed to the front end. *)
Definition msg_stream_token (token : str) : M unit :=
  fun st =>
    (Ok tt,
     mkState (st_history st)
             (mkMessage (msg_content (st_msg st) ++ token) (msg_author (st_msg st)))
             (st_trace st ++ [MessageStreamToken token])).

(** [await msg.update()] *)
Definition msg_update : M unit :=
  fun st => emit (MessageUpdate (st_msg st)) st.

Definition logging_info (line : list LogPart) : M unit := emit (Logging INFO line).
Definition logging_error (line : list LogPart) : M unit := emit (Logging ERROR line).

(* ===================================================================== *)
(** ** Module start-up (lines 17-46) *)
(* ===================================================================== *)

(** [load_dotenv()]: variables of the [.env] file are added to the
    process environment; a variable already set keeps its value. *)
Definition load_dotenv (dotenv environ : gmap string str) : gmap string str :=
  environ ∪ dotenv.

(** [os.getenv(key)] *)
Definition os_getenv (environ : gmap string str) (key : string) : option str :=
  environ !! key.

Definition base_url : string :=
  "https://generativelanguage.googleapis.com/v1beta/openai/".

(** The provider, model and run configuration built once the
    credential is known. *)
Record RunConfig : Type :=
  mkRunConfig
    { api_key : str;
      provider_base_url : string;
      config_model : string;
      tracing_disabled : bool }.

Definition KEY_NOT_FOUND : str :=
  py "❌ GEMINI_API_KEY not found in environment variables.".

(** The top-level statements of the module (lines 17-46), as they run
    once the file has been compiled.  [not gemini_api_key] holds for
    [None] and for the empty string. *)
Definition module_init (dotenv environ : gmap string str) : Res RunConfig :=
  let environ := load_dotenv dotenv environ in
  let gemini_api_key := os_getenv environ "GEMINI_API_KEY" in
  match gemini_api_key with
  | None | Some [] => Raise (mkException "ValueError" KEY_NOT_FOUND)
  | Some key => Ok (mkRunConfig key base_url MODEL_NAME true)
  end.

(** *** Compiling the file

    The interpreter compiles the whole file before the first top-level
    statement runs.  Lines 125 to 127 of src/main.py, as shipped: the
    header of the [try] statement carries the stray word [git]. *)
Definition line_125 : string := "    try:git".
Definition line_126 : string := "        # Step 1: Run guardrail".
Definition line_127 : string :=
  "        guardrail_output = await homework_guardrail(ctx=cl.context, agent=triage_agent, input_data=history)".

(** The number of leading blanks of a line, and the line without them. *)
Fixpoint indentation (line : string) : nat :=
  match line with
  | String " "%char rest => S (indentation rest)
  | _ => O
  end.

Fixpoint dedent (line : string) : string :=
  match line with
  | String " "%char rest => dedent rest
  | _ => line
  end.

(** A line of blanks or of a comment yields no token. *)
Definition is_code_line (line : string) : bool :=
  match dedent line with
  | EmptyString => false
  | String "#"%char _ => false
  | _ => true
  end.

Fixpoint first_code_line (lines : list string) : option string :=
  match lines with
  | [] => None
  | line :: rest => if is_code_line line then Some line else first_code_line rest
  end.

(** The text after the first colon of a line. *)
Fixpoint after_colon (line : string) : option string :=
  match line with
  | EmptyString => None
  | String ":"%char rest => Some rest
  | String _ rest => after_colon rest
  end.

(** A [try:] header with a statement after the colon: that statement
    is the whole suite of the [try]. *)
Definition try_with_inline_suite (line : string) : bool :=
  String.prefix "try" (dedent line)
  && match after_colon line with
     | Some rest => is_code_line rest
     | None => false
     end.

Definition opens_handler (line : string) : bool :=
  String.prefix "except" (dedent line) || String.prefix "finally" (dedent line).

(** What CPython 3.11 reports for the file; older interpreters report
    the same line as an [IndentationError], a subclass of
    [SyntaxError]. *)
Definition NO_HANDLER : PyException :=
  mkException "SyntaxError"
              (py "expected 'except' or 'finally' block (main.py, line 127)").

(** The grammar of the [try] statement: the suite is followed by an
    [except] or a [finally] clause at the indentation of the header.
    With the suite on the header's own line, the next line of code has
    to be that clause. *)
Definition compile_try (header : string) (following : list string) : Res unit :=
  if try_with_inline_suite header then
    match first_code_line following with
    | Some next =>
        if Nat.eqb (indentation next) (indentation header) && opens_handler next
        then Ok tt
        else Raise NO_HANDLER
    | None => Raise NO_HANDLER
    end
  else Ok tt.

Definition compile_module : Res unit := compile_try line_125 [line_126; line_127].

(** Importing the module, which is what starting the application does:
    the file is compiled, then its top-level statements run. *)
Definition import_module (dotenv environ : gmap string str) : Res RunConfig :=
  match compile_module with
  | Raise e => Raise e
  | Ok _ => module_init dotenv environ
  end.

(* ===================================================================== *)
(** ** The agent runner *)
(* ===================================================================== *)

(** Number of guardrail-agent runs recorded in a trace. *)
Definition is_guardrail_run (e : Effect) : bool :=
  match e with
  | RunnerRun a _ => String.eqb a (agent_name guardrail_agent)
  | _ => false
  end.

Definition guardrail_runs (tr : Trace) : nat :=
  length (List.filter is_guardrail_run tr).

(** [result = await Runner.run(agent, input_data)] followed by
    [result.final_output_as(HomeworkOutput)].  The module only runs the
    guardrail agent this way. *)
Definition Runner_run (w : World) (agent : Agent) (input_data : History)
  : M HomeworkOutput :=
  fun st =>
    (guardrail_model w (guardrail_runs (st_trace st)) input_data,
     mkState (st_history st) (st_msg st)
             (st_trace st ++ [RunnerRun (agent_name agent) input_data])).

(** [f"Guardrail output: {final_output}"] *)
Definition guardrail_line (final_output : HomeworkOutput) : list LogPart :=
  [Text (py "Guardrail output: "); Obj final_output].

Definition guardrail_log (final_output : HomeworkOutput) : Effect :=
  Logging INFO (guardrail_line final_output).

(** [async def homework_guardrail(ctx, agent, input_data)] (lines 62-71);
    [ctx] and [agent] are not used by the body. *)
Definition homework_guardrail (w : World) (agent : Agent) (input_data : History)
  : M GuardrailFunctionOutput :=
  final_output <- Runner_run w guardrail_agent input_data ;;
  logging_info (guardrail_line final_output) ;;
  ret (mkGuardrailFunctionOutput final_output (negb (is_homework final_output))).

Definition call_guardrail (w : World) (g : InputGuardrail)
  : Agent -> History -> M GuardrailFunctionOutput :=
  match guardrail_function g with
  | homework_guardrail_fn => homework_guardrail w
  end.

Definition TRIPWIRE : PyException :=
  mkException "InputGuardrailTripwireTriggered"
              (py "Guardrail InputGuardrail triggered tripwire").

(** Modelled from the spec: the orchestrator of the agents library,
    which is not part of the repository.  Section 4.4 says of the
    triage agent's guardrail that it is "a pre-condition check evaluated
    by the orchestrator before triage logic executes": each input
    guardrail the agent declares is called on the run's input, and a
    triggered tripwire aborts the run with an exception. *)
Fixpoint run_input_guardrails (w : World) (gs : list InputGuardrail)
    (agent : Agent) (input : History) : M unit :=
  match gs with
  | [] => ret tt
  | g :: rest =>
      out <- call_guardrail w g agent input ;;
      if tripwire_triggered out then raise TRIPWIRE
      else run_input_guardrails w rest agent input
  end.

(** Modelled from the spec: [Runner.run_streamed(agent, input=...,
    run_config=config)].  The precondition check above comes first;
    the events of the run are then those of the remote model. *)
Definition Runner_run_streamed (w : World) (agent : Agent) (input : History)
  : M RunResultStreaming :=
  emit (RunnerRunStreamed (agent_name agent) input) ;;
  run_input_guardrails w (agent_input_guardrails agent) agent input ;;
  ret (triage_model w input).

(* ===================================================================== *)
(** ** The chat hooks *)
(* ===================================================================== *)

Definition AUTHOR : str := py "AI Tutor 👨‍🏫".

Definition WELCOME : str := py "
👋 **Welcome to AI Tutor Assistant!**

I can help you with:
- 🧮 **Math Problems**
- 🏛️ **History Questions**
- 📚 Homework Identification (MHI)

🔗 _Powered by [Muhammad Hamza Ismail (MHI)](https://muhammadhamzaismail.vercel.app/)_

_Ask your question below to begin!_
".

Definition REJECTION : str :=
  py "🚫 That question isn't allowed. Please ask only about **Math**, **History**".

Definition FALLBACK : str :=
  py "❌ Sorry, I can only help with Math or History questions related to MHI topics.".

(** [f"❌ Oops! Something went wrong:\n\n`{str(e)}`"] *)
Definition error_notice (e : PyException) : str :=
  py "❌ Oops! Something went wrong:" ++ [NL; NL] ++ py "`" ++ exc_str e ++ py "`".

(** [@cl.on_chat_start] (lines 95-113) *)
Definition on_chat_start : M unit :=
  session_set_history [] ;;
  Message_new (mkMessage WELCOME AUTHOR) ;;
  msg_send.

(** [event.type == "raw_response_event" and
     isinstance(event.data, ResponseTextDeltaEvent)]: the delta when the
    test holds. *)
Definition text_delta (event : StreamEvent) : option str :=
  if String.eqb (event_type event) "raw_response_event" then
    match event with
    | RawResponsesStreamEvent (ResponseTextDeltaEvent delta) => Some delta
    | _ => None
    end
  else None.

(** The [async for] loop of lines 143-146.  When the events are
    exhausted the iteration either stops or raises. *)
Fixpoint stream_loop (events : list StreamEvent) (err : option PyException)
    (full_output : str) : M str :=
  match events with
  | [] =>
      match err with
      | None => ret full_output
      | Some e => raise e
      end
  | event :: rest =>
      match text_delta event with
      | Some delta =>
          let full_output := full_output ++ delta in
          msg_stream_token delta ;;
          stream_loop rest err full_output
      | None => stream_loop rest err full_output
      end
  end.

(** Lines 148-156: what is shown and recorded once the stream has ended
    without raising. *)
Definition finish (result : RunResultStreaming) (full_output : str) : M unit :=
  (if match final_output result with None => true | Some _ => false end
      || blank full_output
   then set_content FALLBACK
   else
     set_content full_output ;;
     history_append (assistant_turn full_output)) ;;
  msg_update.

(** The body of the [try] statement (lines 126-156).  Line 125 of the
    source reads [try:git]; the stray word is taken as a typing slip
    and the block as the [try] suite it is indented as. *)
Definition on_message_try (w : World) : M unit :=
  history <- get_history ;;
  guardrail_output <- homework_guardrail w triage_agent history ;;
  if tripwire_triggered guardrail_output then
    set_content REJECTION ;;
    msg_update
  else
    history <- get_history ;;
    result <- Runner_run_streamed w triage_agent history ;;
    full_output <- stream_loop (stream_events result) (stream_error result) [] ;;
    finish result full_output.

(** [f"Exception: {e}"] *)
Definition exception_line (e : PyException) : list LogPart :=
  [Text (py "Exception: "); Text (exc_str e)].

Definition exception_log (e : PyException) : Effect :=
  Logging ERROR (exception_line e).

(** The [except Exception as e] suite (lines 158-161). *)
Definition on_message_except (e : PyException) : M unit :=
  logging_error (exception_line e) ;;
  set_content (error_notice e) ;;
  msg_update.

(** [cl.Message(content=" ", author="AI Tutor ...")] (line 122) *)
Definition placeholder : Message := mkMessage (py " ") AUTHOR.

(** Lines 119-123: the user turn is recorded and the placeholder reply
    is created and sent, before the [try] statement is entered. *)
Definition on_message_begin (message : str) : M unit :=
  history_append (user_turn message) ;;
  Message_new placeholder ;;
  msg_send.

(** [@cl.on_message] (lines 117-161); [message] is [message.content].
    The faults of the remote calls are taken to be instances of
    [Exception], as connection, API and validation errors are. *)
Definition on_message (w : World) (message : str) : M unit :=
  on_message_begin message ;;
  try_except (on_message_try w) on_message_except.





(** A run of messages handled one after the other in one session. *)
Fixpoint on_messages (w : World) (messages : list str) : M unit :=
  match messages with
  | [] => ret tt
  | message :: rest => on_message w message ;; on_messages w rest
  end.

(* ===================================================================== *)
(** ** What the user sees *)
(* ===================================================================== *)

(** The contents of the messages on screen, newest first: a send adds
    a message, a token extends the newest one and an update replaces
    its content. *)
Definition screen_step (shown : list str) (e : Effect) : list str :=
  match e with
  | MessageSend m => msg_content m :: shown
  | MessageStreamToken token =>
      match shown with
      | [] => []
      | newest :: older => (newest ++ token) :: older
      end
  | MessageUpdate m =>
      match shown with
      | [] => []
      | _ :: older => msg_content m :: older
      end
  | _ => shown
  end.

Definition screen (tr : Trace) : list str := fold_left screen_step tr [].

(** The content of the newest message on screen. *)
Definition displayed (tr : Trace) : option str := head (screen tr).

Definition token_of (e : Effect) : option str :=
  match e with MessageStreamToken t => Some t | _ => None end.

(** The fragments pushed to the front end, in the order they were pushed. *)
Definition tokens_of (tr : Trace) : list str := omap token_of tr.



(** The text deltas a stream carries, in order. *)
Definition text_deltas (events : list StreamEvent) : list str := omap text_delta events.

(** The inputs of the guardrail-agent runs of a trace, in order. *)
Definition guardrail_input (e : Effect) : option History :=
  match e with
  | RunnerRun a input =>
      if String.eqb a (agent_name guardrail_agent) then Some input else None
  | _ => None
  end.

Definition guardrail_inputs (tr : Trace) : list History := omap guardrail_input tr.

(* ===================================================================== *)
(** ** Reading a handled message *)
(* ===================================================================== *)


(** The state a handled message leaves behind. *)
Definition handled (w : World) (message : str) (st : State) : State :=
  snd (on_message w message st).


(** Whether the [n]-th guardrail run accepts [h]. *)
Definition accepts (w : World) (n : nat) (h : History) : bool :=
  match guardrail_model w n h with
  | Ok v => is_homework v
  | Raise _ => false
  end.

(** How often the guardrail agent is run while one message is handled. *)
Definition guardrail_invocations (w : World) (message : str) (st : State) : nat :=
  (guardrail_runs (st_trace (handled w message st)) - guardrail_runs (st_trace st))%nat.

(** The four ways the handler is left (the terminal states of
    section 4.4 of the specification). *)
Inductive Exit : Type :=
| Rejected
| Delivered (text : str)
| EmptyFallback
| Faulted (e : PyException).

Definition notice (x : Exit) : str :=
  match x with
  | Rejected => REJECTION
  | Delivered text => text
  | EmptyFallback => FALLBACK
  | Faulted e => error_notice e
  end.

Definition reply (x : Exit) : History :=
  match x with
  | Delivered text => [assistant_turn text]
  | _ => []
  end.

(** The exit taken when the guardrail has run [n] times before and the
    history, user turn included, is [h]. *)
Definition exit_of (w : World) (n : nat) (h : History) : Exit :=
  match guardrail_model w n h with
  | Raise e => Faulted e
  | Ok v1 =>
      if is_homework v1 then
        match guardrail_model w (S n) h with
        | Raise e => Faulted e
        | Ok v2 =>
            if is_homework v2 then
              let r := triage_model w h in
              let full_output := join (text_deltas (stream_events r)) in
              match stream_error r with
              | Some e => Faulted e
              | None =>
                  if match final_output r with None => true | Some _ => false end
                     || blank full_output
                  then EmptyFallback
                  else Delivered full_output
              end
            else Faulted TRIPWIRE
        end
      else Rejected
  end.


(** The effects between the sending of the placeholder and the last
    steps of the exit. *)
Definition during (w : World) (n : nat) (h : History) : Trace :=
  RunnerRun "Guardrail check" h ::
  match guardrail_model w n h with
  | Raise _ => []
  | Ok v1 =>
      guardrail_log v1 ::
      if is_homework v1 then
        RunnerRunStreamed "Triage Agent" h ::
        RunnerRun "Guardrail check" h ::
        match guardrail_model w (S n) h with
        | Raise _ => []
        | Ok v2 =>
            guardrail_log v2 ::
            if is_homework v2
            then map MessageStreamToken (text_deltas (stream_events (triage_model w h)))
            else []
        end
      else []
  end.

(** The last steps of an exit: the error is logged, the reply is
    recorded, the message is updated. *)
Definition closing (x : Exit) : Trace :=
  match x with Faulted e => [exception_log e] | _ => [] end
  ++ map HistoryAppend (reply x)
  ++ [MessageUpdate (mkMessage (notice x) AUTHOR)].

(* ===================================================================== *)
(** ** Sample sessions *)
(* ===================================================================== *)

Definition verdict (b : bool) (why : string) : Res HomeworkOutput :=
  Ok (mkHomeworkOutput b (py why)).

Definition delta_event (text : string) : StreamEvent :=
  RawResponsesStreamEvent (ResponseTextDeltaEvent (py text)).

(** A session just after [on_chat_start]. *)
Definition session0 : State :=
  snd (on_chat_start (mkState [] (mkMessage [] []) [])).

Definition movie_question : str := py "What's your favorite movie?".
Definition math_question : str := py "Solve 2x + 3 = 7".

(** The guardrail finds nothing to be homework. *)
Definition w_off_topic : World :=
  mkWorld (fun _ _ => verdict false "not homework")
          (fun _ => mkRunResultStreaming [] None None).

(** The guardrail accepts and the math tutor answers in two fragments. *)
Definition w_math : World :=
  mkWorld (fun _ _ => verdict true "math")
          (fun _ =>
             mkRunResultStreaming
               [AgentUpdatedStreamEvent "Math Tutor";
                delta_event "x =";
                RawResponsesStreamEvent (ResponseOtherEvent "response.output_item.done");
                delta_event " 2";
                RunItemStreamEvent "message_output_created"]
               None (Some (py "x = 2"))).

(** The guardrail accepts and the run streams a single space. *)
Definition w_space : World :=
  mkWorld (fun _ _ => verdict true "math")
          (fun _ => mkRunResultStreaming [delta_event " "] None (Some (py " "))).

(** The guardrail accepts and the run streams nothing. *)
Definition w_silent : World :=
  mkWorld (fun _ _ => verdict true "history")
          (fun _ => mkRunResultStreaming [AgentUpdatedStreamEvent "History Tutor"]
                                         None (Some [])).



(* ===================================================================== *)
(** ** Reading a session *)
(* ===================================================================== *)

(** The texts of the user turns of a history, in order. *)
Definition user_text (t : Turn) : option str :=
  if String.eqb (role t) "user" then Some (content t) else None.

Definition user_texts (h : History) : list str := omap user_text h.

(** Every assistant turn comes right after a user turn; [after_user]
    says whether the turn before the first one of [h] is a user turn. *)
Fixpoint answers_follow (after_user : bool) (h : History) : bool :=
  match h with
  | [] => true
  | t :: rest =>
      (negb (is_assistant t) || after_user)
      && answers_follow (String.eqb (role t) "user") rest
  end.

(** No assistant turn is empty or whitespace-only. *)
Definition answer_has_text (t : Turn) : bool :=
  negb (is_assistant t) || negb (blank (content t)).

Definition no_blank_answers (h : History) : bool := forallb answer_has_text h.

(** Number of streamed triage runs started in a trace. *)
Definition is_streamed_run (e : Effect) : bool :=
  match e with
  | RunnerRunStreamed a _ => String.eqb a (agent_name triage_agent)
  | _ => false
  end.

Definition streamed_runs (tr : Trace) : nat :=
  length (List.filter is_streamed_run tr).



(** The test of line 144 as a predicate on events. *)
Definition is_text_event (event : StreamEvent) : bool :=
  match text_delta event with Some _ => true | None => false end.

(** The guardrail accepts, the run streams a fragment and then breaks. *)
Definition stream_broken : PyException :=
  mkException "APIError" (py "stream interrupted").


(** The guardrail accepts, the run streams nothing, has no final
    output and breaks. *)
Definition w_mute : World :=
  mkWorld (fun _ _ => verdict true "math")
          (fun _ => mkRunResultStreaming [] (Some stream_broken) None).



(** As [w_math], but the final output object carries another text and
    the stream carries only the two text deltas. *)
Definition w_math_other_final : World :=
  mkWorld (fun _ _ => verdict true "math")
          (fun _ => mkRunResultStreaming
                      [delta_event "x ="; delta_event " 2"]
                      None (Some (py "something else"))).

(** The guardrail accepts histories of at most two turns only. *)
Definition w_short : World :=
  mkWorld (fun _ h => verdict (Nat.leb (length h) 2) "by length")
          (fun _ => mkRunResultStreaming [delta_event "ok"] None (Some (py "ok"))).

(* ===================================================================== *)
(** ** Facts about text *)
(* ===================================================================== *)

Section Text.

Lemma lstrip_nil (s : str) : lstrip s = [] <-> forallb isspace s = true.
Proof.
  induction s as [|c s IH]; simpl; [tauto|].
  destruct (isspace c) eqn:Hc; simpl; [exact IH|].
  split; discriminate.
Qed.

Lemma lstrip_head (s : str) (c : N) (r : str) :
  lstrip s = c :: r -> isspace c = false.
Proof.
  induction s as [|d s IH]; simpl; [discriminate|].
  destruct (isspace d) eqn:Hd; [exact IH|].
  intros E; injection E as -> _; exact Hd.
Qed.

Lemma forallb_rev (f : N -> bool) (s : str) :
  forallb f (rev s) = forallb f s.
Proof.
  induction s as [|c s IH]; simpl; [reflexivity|].
  rewrite forallb_app, IH; simpl. rewrite andb_true_r. apply andb_comm.
Qed.

(** [s.strip() == ""] exactly when every character of [s] is
    whitespace (the empty string included). *)
Lemma blank_spec (s : str) : blank s = true <-> forallb isspace s = true.
Proof.
  unfold blank, strip, rstrip. split.
  - destruct (rev (lstrip (rev (lstrip s)))) eqn:E; [intros _|discriminate].
    apply (f_equal (@rev N)) in E. rewrite rev_involutive in E. simpl in E.
    apply lstrip_nil in E. rewrite forallb_rev in E.
    destruct (lstrip s) as [|c r] eqn:El.
    + apply lstrip_nil; exact El.
    + apply lstrip_head in El. simpl in E. rewrite El in E. discriminate.
  - intros H. apply lstrip_nil in H. rewrite H. reflexivity.
Qed.

End Text.

(* ===================================================================== *)
(** ** How the handler runs *)
(* ===================================================================== *)

Arguments py : simpl never.

Section Runs.

Variable w : World.

Lemma guardrail_runs_app (tr tr' : Trace) :
  guardrail_runs (tr ++ tr') = (guardrail_runs tr + guardrail_runs tr')%nat.
Proof. unfold guardrail_runs. rewrite List.filter_app. apply length_app. Qed.


Lemma tokens_of_app (tr tr' : Trace) :
  tokens_of (tr ++ tr') = tokens_of tr ++ tokens_of tr'.
Proof. apply omap_app. Qed.

Lemma screen_app (tr tr' : Trace) :
  screen (tr ++ tr') = fold_left screen_step tr' (screen tr).
Proof. apply fold_left_app. Qed.

Lemma assistant_turns_app (h h' : History) :
  assistant_turns (h ++ h') = (assistant_turns h + assistant_turns h')%nat.
Proof. unfold assistant_turns. rewrite List.filter_app. apply length_app. Qed.

Lemma on_message_begin_run (message : str) (st : State) :
  on_message_begin message st =
  (Ok tt,
   mkState (st_history st ++ [user_turn message]) placeholder
           (st_trace st ++ [HistoryAppend (user_turn message); MessageSend placeholder])).
Proof.
  unfold on_message_begin, bind, history_append, Message_new, msg_send, emit.
  simpl. rewrite <- app_assoc. reflexivity.
Qed.

Lemma homework_guardrail_run (agent : Agent) (input : History) (st : State) :
  homework_guardrail w agent input st =
  match guardrail_model w (guardrail_runs (st_trace st)) input with
  | Raise e =>
      (Raise e,
       mkState (st_history st) (st_msg st)
               (st_trace st ++ [RunnerRun "Guardrail check" input]))
  | Ok v =>
      (Ok (mkGuardrailFunctionOutput v (negb (is_homework v))),
       mkState (st_history st) (st_msg st)
               (st_trace st ++ [RunnerRun "Guardrail check" input; guardrail_log v]))
  end.
Proof.
  unfold homework_guardrail, bind, Runner_run, logging_info, emit, ret.
  destruct (guardrail_model w _ input) as [v|e]; simpl; [|reflexivity].
  rewrite <- app_assoc. reflexivity.
Qed.

Lemma stream_loop_run (events : list StreamEvent) (err : option PyException) :
  forall (acc : str) (st : State),
    stream_loop events err acc st =
    (match err with
     | None => Ok (acc ++ join (text_deltas events))
     | Some e => Raise e
     end,
     mkState (st_history st)
             (mkMessage (msg_content (st_msg st) ++ join (text_deltas events))
                        (msg_author (st_msg st)))
             (st_trace st ++ map MessageStreamToken (text_deltas events))).
Proof.
  induction events as [|event rest IH]; intros acc [h [c a] tr]; simpl.
  - rewrite !app_nil_r. destruct err; reflexivity.
  - unfold text_deltas; simpl. fold (text_deltas rest).
    destruct (text_delta event) as [delta|]; simpl.
    + unfold bind, msg_stream_token; simpl. rewrite IH; simpl.
      unfold join; simpl. rewrite <- !app_assoc. reflexivity.
    + apply IH.
Qed.

Lemma on_message_except_run (e : PyException) (st : State) :
  on_message_except e st =
  (Ok tt,
   mkState (st_history st)
           (mkMessage (error_notice e) (msg_author (st_msg st)))
           (st_trace st ++
              [exception_log e;
               MessageUpdate (mkMessage (error_notice e) (msg_author (st_msg st)))])).
Proof.
  unfold on_message_except, bind, logging_error, set_content, msg_update, emit.
  simpl. rewrite <- app_assoc. reflexivity.
Qed.

Lemma guardrail_runs_snoc_other (tr : Trace) (e : Effect) :
  is_guardrail_run e = false -> guardrail_runs (tr ++ [e]) = guardrail_runs tr.
Proof.
  intros H. rewrite guardrail_runs_app. unfold guardrail_runs at 2. simpl.
  rewrite H. simpl. lia.
Qed.

(** The streamed run of the triage agent: its declared guardrail is
    evaluated once more, on the same input. *)
Lemma Runner_run_streamed_run (input : History) (st : State) :
  let checked :=
    [RunnerRunStreamed "Triage Agent" input; RunnerRun "Guardrail check" input] in
  Runner_run_streamed w triage_agent input st =
  match guardrail_model w (guardrail_runs (st_trace st)) input with
  | Raise e =>
      (Raise e, mkState (st_history st) (st_msg st) (st_trace st ++ checked))
  | Ok v2 =>
      (if is_homework v2 then Ok (triage_model w input) else Raise TRIPWIRE,
       mkState (st_history st) (st_msg st)
               (st_trace st ++ checked ++ [guardrail_log v2]))
  end.
Proof.
  destruct st as [h m tr]. cbv zeta.
  unfold Runner_run_streamed, bind, emit. simpl.
  unfold bind, call_guardrail. simpl. rewrite homework_guardrail_run. simpl.
  rewrite guardrail_runs_snoc_other by reflexivity.
  destruct (guardrail_model w (guardrail_runs tr) input) as [v2|e]; simpl.
  - rewrite <- !app_assoc. simpl. destruct (is_homework v2); reflexivity.
  - rewrite <- !app_assoc. reflexivity.
Qed.

Lemma finish_run (result : RunResultStreaming) (full_output : str) (st : State) :
  let author := msg_author (st_msg st) in
  finish result full_output st =
  if match final_output result with None => true | Some _ => false end
     || blank full_output
  then
    (Ok tt,
     mkState (st_history st) (mkMessage FALLBACK author)
             (st_trace st ++ [MessageUpdate (mkMessage FALLBACK author)]))
  else
    (Ok tt,
     mkState (st_history st ++ [assistant_turn full_output])
             (mkMessage full_output author)
             (st_trace st ++
                [HistoryAppend (assistant_turn full_output);
                 MessageUpdate (mkMessage full_output author)])).
Proof.
  destruct st as [h m tr]. cbv zeta. unfold finish.
  destruct (_ || _); unfold bind, set_content, history_append, msg_update, emit; simpl.
  - reflexivity.
  - rewrite <- app_assoc. reflexivity.
Qed.

(** The [try] suite, flattened: which of its exits is taken and the
    state it leaves, read off the oracles. *)
Lemma on_message_try_run (st : State) :
  let h := st_history st in
  let n := guardrail_runs (st_trace st) in
  let author := msg_author (st_msg st) in
  let r := triage_model w h in
  let toks := text_deltas (stream_events r) in
  let checked v1 :=
    [RunnerRun "Guardrail check" h; guardrail_log v1;
     RunnerRunStreamed "Triage Agent" h; RunnerRun "Guardrail check" h] in
  on_message_try w st =
  match guardrail_model w n h with
  | Raise e =>
      (Raise e,
       mkState h (st_msg st) (st_trace st ++ [RunnerRun "Guardrail check" h]))
  | Ok v1 =>
      if is_homework v1 then
        match guardrail_model w (S n) h with
        | Raise e => (Raise e, mkState h (st_msg st) (st_trace st ++ checked v1))
        | Ok v2 =>
            let streamed :=
              checked v1 ++ [guardrail_log v2] ++ map MessageStreamToken toks in
            if is_homework v2 then
              match stream_error r with
              | Some e =>
                  (Raise e,
                   mkState h (mkMessage (msg_content (st_msg st) ++ join toks) author)
                           (st_trace st ++ streamed))
              | None =>
                  if match final_output r with None => true | Some _ => false end
                     || blank (join toks)
                  then
                    (Ok tt,
                     mkState h (mkMessage FALLBACK author)
                             (st_trace st ++ streamed ++
                                [MessageUpdate (mkMessage FALLBACK author)]))
                  else
                    (Ok tt,
                     mkState (h ++ [assistant_turn (join toks)])
                             (mkMessage (join toks) author)
                             (st_trace st ++ streamed ++
                                [HistoryAppend (assistant_turn (join toks));
                                 MessageUpdate (mkMessage (join toks) author)]))
              end
            else
              (Raise TRIPWIRE,
               mkState h (st_msg st)
                       (st_trace st ++ checked v1 ++ [guardrail_log v2]))
        end
      else
        (Ok tt,
         mkState h (mkMessage REJECTION author)
                 (st_trace st ++
                    [RunnerRun "Guardrail check" h; guardrail_log v1;
                     MessageUpdate (mkMessage REJECTION author)]))
  end.
Proof.
  destruct st as [h m tr]. cbv zeta. simpl st_history; simpl st_trace; simpl st_msg.
  unfold on_message_try.
  unfold bind at 1, get_history. simpl st_history.
  unfold bind at 1. rewrite homework_guardrail_run. simpl st_trace.
  destruct (guardrail_model w (guardrail_runs tr) h) as [v1|e]; [|reflexivity].
  destruct (is_homework v1) eqn:Hv1; simpl.
  - unfold bind at 1, get_history. simpl st_history.
    unfold bind at 1. rewrite Runner_run_streamed_run. simpl st_trace.
    replace (guardrail_runs (tr ++ [RunnerRun "Guardrail check" h; guardrail_log v1]))
      with (S (guardrail_runs tr))
      by (rewrite guardrail_runs_app; cbn; lia).
    destruct (guardrail_model w (S (guardrail_runs tr)) h) as [v2|e]; simpl.
    + destruct (is_homework v2); simpl.
      * unfold bind at 1. rewrite stream_loop_run. simpl.
        destruct (stream_error (triage_model w h)) as [e|]; simpl.
        -- rewrite <- !app_assoc. reflexivity.
        -- rewrite finish_run. simpl.
           destruct (_ || _); rewrite <- !app_assoc; simpl; reflexivity.
      * rewrite <- !app_assoc. reflexivity.
    + rewrite <- !app_assoc. reflexivity.
  - unfold bind, set_content, msg_update, emit. simpl.
    rewrite <- app_assoc. reflexivity.
Qed.




(** The whole handler, flattened: it returns, and the state it leaves
    is the old one with the user turn, the reply of the exit (if any),
    the final message and the effects performed. *)
Lemma on_message_spec (message : str) (st : State) :
  let h := st_history st ++ [user_turn message] in
  let n := guardrail_runs (st_trace st) in
  let x := exit_of w n h in
  on_message w message st =
  (Ok tt,
   mkState (h ++ reply x) (mkMessage (notice x) AUTHOR)
           (st_trace st ++
              [HistoryAppend (user_turn message); MessageSend placeholder]
              ++ during w n h ++ closing x)).
Proof.
  cbv zeta. unfold on_message, bind. rewrite on_message_begin_run.
  unfold try_except. rewrite on_message_try_run. cbv zeta.
  simpl st_history; simpl st_trace; simpl st_msg.
  replace (guardrail_runs
             (st_trace st ++
                [HistoryAppend (user_turn message); MessageSend placeholder]))
    with (guardrail_runs (st_trace st))
    by (rewrite guardrail_runs_app; cbn; lia).
  unfold exit_of, during.
  set (h := st_history st ++ [user_turn message]).
  set (n := guardrail_runs (st_trace st)).
  destruct (guardrail_model w n h) as [v1|e];
    [destruct (is_homework v1);
     [destruct (guardrail_model w (S n) h) as [v2|e];
      [destruct (is_homework v2);
       [destruct (stream_error (triage_model w h)) as [e|];
        [|destruct (_ || _)]|]|]|]|];
    rewrite ?on_message_except_run; unfold closing; simpl;
    rewrite ?app_nil_r, <- ?app_assoc; simpl; repeat f_equal.
Qed.

Lemma on_message_returns (message : str) (st : State) :
  fst (on_message w message st) = Ok tt.
Proof. rewrite on_message_spec. reflexivity. Qed.

Lemma handled_eq (message : str) (st : State) :
  let h := st_history st ++ [user_turn message] in
  let n := guardrail_runs (st_trace st) in
  let x := exit_of w n h in
  handled w message st =
  mkState (h ++ reply x) (mkMessage (notice x) AUTHOR)
          (st_trace st ++
             [HistoryAppend (user_turn message); MessageSend placeholder]
             ++ during w n h ++ closing x).
Proof. cbv zeta. unfold handled. rewrite on_message_spec. reflexivity. Qed.

(** *** What the effects of one message amount to *)


Lemma guardrail_runs_tokens (toks : list str) :
  guardrail_runs (map MessageStreamToken toks) = 0%nat.
Proof. induction toks as [|t toks IH]; [reflexivity|exact IH]. Qed.

Lemma tokens_of_tokens (toks : list str) :
  tokens_of (map MessageStreamToken toks) = toks.
Proof.
  induction toks as [|t toks IH]; [reflexivity|].
  change (t :: tokens_of (map MessageStreamToken toks) = t :: toks).
  rewrite IH. reflexivity.
Qed.

Lemma screen_tokens (toks : list str) :
  forall (newest : str) (older : list str),
    fold_left screen_step (map MessageStreamToken toks) (newest :: older) =
    (newest ++ join toks) :: older.
Proof.
  induction toks as [|t toks IH]; intros newest older; simpl.
  - rewrite app_nil_r. reflexivity.
  - rewrite IH. unfold join. simpl. rewrite <- app_assoc. reflexivity.
Qed.



Lemma guardrail_runs_during (n : nat) (h : History) :
  guardrail_runs (during w n h) = if accepts w n h then 2%nat else 1%nat.
Proof.
  unfold during, accepts.
  destruct (guardrail_model w n h) as [v1|e]; [|reflexivity].
  destruct (is_homework v1); [|reflexivity].
  destruct (guardrail_model w (S n) h) as [v2|e]; [|reflexivity].
  destruct (is_homework v2); [|reflexivity].
  change (S (S (guardrail_runs
                  (map MessageStreamToken
                       (text_deltas (stream_events (triage_model w h)))))) = 2%nat).
  rewrite guardrail_runs_tokens. reflexivity.
Qed.

Lemma guardrail_runs_closing (x : Exit) : guardrail_runs (closing x) = 0%nat.
Proof. destruct x; reflexivity. Qed.

Lemma tokens_of_closing (x : Exit) : tokens_of (closing x) = [].
Proof. destruct x; reflexivity. Qed.

Lemma screen_during (n : nat) (h : History) (newest : str) (older : list str) :
  fold_left screen_step (during w n h) (newest :: older) =
  (newest ++ join (tokens_of (during w n h))) :: older.
Proof.
  unfold during.
  destruct (guardrail_model w n h) as [v1|e];
    [|simpl; rewrite app_nil_r; reflexivity].
  destruct (is_homework v1); [|simpl; rewrite app_nil_r; reflexivity].
  destruct (guardrail_model w (S n) h) as [v2|e];
    [|simpl; rewrite app_nil_r; reflexivity].
  destruct (is_homework v2); [|simpl; rewrite app_nil_r; reflexivity].
  change (fold_left screen_step
            (map MessageStreamToken (text_deltas (stream_events (triage_model w h))))
            (newest :: older) =
          (newest ++
             join (tokens_of
                     (map MessageStreamToken
                          (text_deltas (stream_events (triage_model w h))))))
            :: older).
  rewrite tokens_of_tokens. apply screen_tokens.
Qed.

Lemma screen_closing (x : Exit) (newest : str) (older : list str) :
  fold_left screen_step (closing x) (newest :: older) = notice x :: older.
Proof. destruct x; reflexivity. Qed.

(** One more message is on screen after a handled message, and it
    shows the notice of the exit. *)
Lemma screen_handled (message : str) (st : State) :
  screen (st_trace (handled w message st)) =
  notice (exit_of w (guardrail_runs (st_trace st))
                  (st_history st ++ [user_turn message]))
  :: screen (st_trace st).
Proof.
  rewrite handled_eq. cbv zeta. cbn [st_trace].
  rewrite screen_app, !fold_left_app.
  cbn [fold_left screen_step].
  rewrite screen_during. apply screen_closing.
Qed.

(** The guardrail rejects: the state a message leaves. *)
Lemma handled_rejected (message : str) (st : State) (v : HomeworkOutput) :
  guardrail_model w (guardrail_runs (st_trace st))
                  (st_history st ++ [user_turn message]) = Ok v ->
  is_homework v = false ->
  handled w message st =
  mkState (st_history st ++ [user_turn message])
          (mkMessage REJECTION AUTHOR)
          (st_trace st ++
             [HistoryAppend (user_turn message); MessageSend placeholder;
              RunnerRun "Guardrail check" (st_history st ++ [user_turn message]);
              guardrail_log v;
              MessageUpdate (mkMessage REJECTION AUTHOR)]).
Proof.
  intros Hv Hb. rewrite handled_eq. cbv zeta.
  unfold exit_of, during. rewrite Hv, Hb. simpl. rewrite app_nil_r. reflexivity.
Qed.

Lemma exit_rejected (n : nat) (h : History) (v : HomeworkOutput) :
  guardrail_model w n h = Ok v -> is_homework v = false ->
  exit_of w n h = Rejected.
Proof. intros Hv Hb. unfold exit_of. rewrite Hv, Hb. reflexivity. Qed.

(** A delivered text is the concatenation of the tokens streamed. *)
Lemma exit_delivered (n : nat) (h : History) (text : str) :
  exit_of w n h = Delivered text ->
  tokens_of (during w n h) = text_deltas (stream_events (triage_model w h)) /\
  text = join (text_deltas (stream_events (triage_model w h))) /\
  blank text = false.
Proof.
  unfold exit_of, during.
  destruct (guardrail_model w n h) as [v1|e]; [|discriminate].
  destruct (is_homework v1); [|discriminate].
  destruct (guardrail_model w (S n) h) as [v2|e]; [|discriminate].
  destruct (is_homework v2); [|discriminate].
  destruct (stream_error (triage_model w h)); [discriminate|].
  destruct (match final_output (triage_model w h) with
            | Some _ => false | None => true end); [discriminate|].
  destruct (blank (join (text_deltas (stream_events (triage_model w h))))) eqn:B;
    [discriminate|].
  simpl. intros E; injection E as <-.
  split; [|split; [reflexivity|exact B]].
  apply (tokens_of_tokens (text_deltas (stream_events (triage_model w h)))).
Qed.

Lemma guardrail_inputs_app (tr tr' : Trace) :
  guardrail_inputs (tr ++ tr') = guardrail_inputs tr ++ guardrail_inputs tr'.
Proof. apply omap_app. Qed.

Lemma guardrail_inputs_tokens (toks : list str) :
  guardrail_inputs (map MessageStreamToken toks) = [].
Proof. induction toks as [|t toks IH]; [reflexivity|exact IH]. Qed.

(** Every guardrail run of a message is on the whole history. *)
Lemma guardrail_inputs_during (n : nat) (h : History) :
  guardrail_inputs (during w n h) =
  List.repeat h (if accepts w n h then 2%nat else 1%nat).
Proof.
  unfold during, accepts.
  destruct (guardrail_model w n h) as [v1|e]; [|reflexivity].
  destruct (is_homework v1); [|reflexivity].
  destruct (guardrail_model w (S n) h) as [v2|e]; [|reflexivity].
  destruct (is_homework v2); [|reflexivity].
  change (h :: h :: guardrail_inputs
                      (map MessageStreamToken
                           (text_deltas (stream_events (triage_model w h))))
          = [h; h]).
  rewrite guardrail_inputs_tokens. reflexivity.
Qed.

Lemma guardrail_inputs_closing (x : Exit) : guardrail_inputs (closing x) = [].
Proof. destruct x; reflexivity. Qed.

Lemma guardrail_runs_handled (message : str) (st : State) :
  guardrail_runs (st_trace (handled w message st)) =
  (guardrail_runs (st_trace st) +
   (if accepts w (guardrail_runs (st_trace st))
               (st_history st ++ [user_turn message])
    then 2 else 1))%nat.
Proof.
  rewrite handled_eq. cbv zeta. cbn [st_trace].
  rewrite !guardrail_runs_app, guardrail_runs_during, guardrail_runs_closing.
  change (guardrail_runs [HistoryAppend (user_turn message); MessageSend placeholder])
    with 0%nat.
  lia.
Qed.

Lemma guardrail_inputs_handled (message : str) (st : State) :
  guardrail_inputs (st_trace (handled w message st)) =
  guardrail_inputs (st_trace st) ++
  List.repeat (st_history st ++ [user_turn message])
              (if accepts w (guardrail_runs (st_trace st))
                          (st_history st ++ [user_turn message])
               then 2%nat else 1%nat).
Proof.
  rewrite handled_eq. cbv zeta. cbn [st_trace].
  rewrite !guardrail_inputs_app, guardrail_inputs_during, guardrail_inputs_closing.
  change (guardrail_inputs
            [HistoryAppend (user_turn message); MessageSend placeholder])
    with (@nil History).
  rewrite app_nil_r. reflexivity.
Qed.

(** The first thing the handler does after recording the user turn
    and sending the placeholder is to run the guardrail, on the
    history that ends with the new user turn. *)
Lemma trace_handled_prefix (message : str) (st : State) :
  exists rest : Trace,
    st_trace (handled w message st) =
    st_trace st ++
      [HistoryAppend (user_turn message); MessageSend placeholder;
       RunnerRun "Guardrail check" (st_history st ++ [user_turn message])]
      ++ rest.
Proof.
  rewrite handled_eq. cbv zeta. cbn [st_trace].
  eexists. unfold during. reflexivity.
Qed.

Lemma tokens_of_handled (message : str) (st : State) :
  tokens_of (st_trace (handled w message st)) =
  tokens_of (st_trace st) ++
  tokens_of (during w (guardrail_runs (st_trace st))
                    (st_history st ++ [user_turn message])).
Proof.
  rewrite handled_eq. cbv zeta. cbn [st_trace].
  rewrite !tokens_of_app, tokens_of_closing, app_nil_r. reflexivity.
Qed.


Lemma history_handled (message : str) (st : State) :
  st_history (handled w message st) =
  (st_history st ++ [user_turn message]) ++
  reply (exit_of w (guardrail_runs (st_trace st))
                 (st_history st ++ [user_turn message])).
Proof. rewrite handled_eq. reflexivity. Qed.

Lemma on_messages_cons (message : str) (rest : list str) (st : State) :
  on_messages w (message :: rest) st = on_messages w rest (handled w message st).
Proof.
  unfold handled. simpl. unfold bind.
  rewrite on_message_spec. reflexivity.
Qed.

Lemma assistant_turns_users (h : History) (text : str) (k : nat) :
  assistant_turns (h ++ List.repeat (user_turn text) k) = assistant_turns h.
Proof.
  rewrite assistant_turns_app.
  assert (E : assistant_turns (List.repeat (user_turn text) k) = 0%nat)
    by (induction k as [|k IH]; [reflexivity|exact IH]).
  rewrite E. lia.
Qed.

Lemma assistant_turns_user (h : History) (text : str) :
  assistant_turns (h ++ [user_turn text]) = assistant_turns h.
Proof. apply (assistant_turns_users h text 1). Qed.

(** The accepted path once the orchestrator's own check has passed
    and the stream has ended without raising. *)
Lemma exit_streamed (n : nat) (h : History) (v1 v2 : HomeworkOutput) :
  guardrail_model w n h = Ok v1 -> is_homework v1 = true ->
  guardrail_model w (S n) h = Ok v2 -> is_homework v2 = true ->
  stream_error (triage_model w h) = None ->
  exit_of w n h =
  (if match final_output (triage_model w h) with None => true | Some _ => false end
      || blank (join (text_deltas (stream_events (triage_model w h))))
   then EmptyFallback
   else Delivered (join (text_deltas (stream_events (triage_model w h))))) /\
  tokens_of (during w n h) = text_deltas (stream_events (triage_model w h)).
Proof.
  intros H1 B1 H2 B2 He. unfold exit_of, during.
  rewrite H1, B1, H2, B2, He. split; [reflexivity|].
  apply (tokens_of_tokens (text_deltas (stream_events (triage_model w h)))).
Qed.







End Runs.

(* ===================================================================== *)
(** ** The rejected path *)
(* ===================================================================== *)

(** C1.  Whenever the guardrail returns [is_homework = false] on the
    history (the new user turn included), the handler returns, the
    history is the old one plus the user turn only (no assistant turn is
    appended), nothing is streamed, and the message on screen is exactly
    the fixed rejection text. *)
Theorem rejection_shows_fixed_notice
    (w : World) (message : str) (st : State) (v : HomeworkOutput) :
  guardrail_model w (guardrail_runs (st_trace st))
                  (st_history st ++ [user_turn message]) = Ok v ->
  is_homework v = false ->
  fst (on_message w message st) = Ok tt /\
  st_history (handled w message st) = st_history st ++ [user_turn message] /\
  assistant_turns (st_history (handled w message st))
    = assistant_turns (st_history st) /\
  tokens_of (st_trace (handled w message st)) = tokens_of (st_trace st) /\
  displayed (st_trace (handled w message st)) = Some REJECTION.
Proof.
  intros Hv Hb.
  pose proof (exit_rejected w _ _ v Hv Hb) as Hx.
  split; [apply on_message_returns|].
  split; [rewrite history_handled, Hx; apply app_nil_r|].
  split.
  - rewrite history_handled, Hx. simpl reply. rewrite app_nil_r.
    apply assistant_turns_user.
  - split.
    + rewrite (handled_rejected w message st v Hv Hb). simpl st_trace.
      rewrite tokens_of_app. apply app_nil_r.
    + unfold displayed. rewrite screen_handled, Hx. reflexivity.
Qed.

Lemma rejection_shows_fixed_notice_witness :
  st_history (handled w_off_topic movie_question session0)
    = [user_turn movie_question] /\
  displayed (st_trace (handled w_off_topic movie_question session0))
    = Some REJECTION.
Proof.
  pose proof (rejection_shows_fixed_notice
                w_off_topic movie_question session0
                (mkHomeworkOutput false (py "not homework"))
                eq_refl eq_refl) as H.
  split; [exact (proj1 (proj2 H))|exact (proj2 (proj2 (proj2 (proj2 H))))].
Defined.

(* ===================================================================== *)
(** ** Invariants of every handled message *)
(* ===================================================================== *)

(** C5.  Handling one user message appends the user turn and then at
    most one assistant turn: the history grows by the user turn alone
    or by the user turn followed by exactly one assistant turn. *)
Theorem at_most_one_assistant_turn (w : World) (message : str) (st : State) :
  (st_history (handled w message st) = st_history st ++ [user_turn message] \/
   exists text : str,
     st_history (handled w message st)
       = st_history st ++ [user_turn message; assistant_turn text]) /\
  (assistant_turns (st_history (handled w message st))
     <= S (assistant_turns (st_history st)))%nat.
Proof.
  rewrite history_handled.
  destruct (exit_of w (guardrail_runs (st_trace st))
                    (st_history st ++ [user_turn message])) as [|text| |e];
    simpl reply.
  2: { split; [right; exists text; rewrite <- app_assoc; reflexivity|].
       rewrite assistant_turns_app, assistant_turns_user.
       change (assistant_turns [assistant_turn text]) with 1%nat.
       lia. }
  all: rewrite app_nil_r; split; [left; reflexivity|];
    rewrite assistant_turns_user; lia.
Qed.

(** C7.  For every incoming message, whatever the session has seen
    before, the effects of the handler begin with the append of the
    user turn, then the placeholder, then a guardrail run whose input
    is the whole history, new user turn included; every guardrail run
    made for the message has that same input. *)
Theorem guardrail_runs_on_whole_history (w : World) (message : str) (st : State) :
  (exists rest : Trace,
     st_trace (handled w message st) =
     st_trace st ++
       [HistoryAppend (user_turn message); MessageSend placeholder;
        RunnerRun "Guardrail check" (st_history st ++ [user_turn message])]
       ++ rest) /\
  (exists k : nat,
     (1 <= k)%nat /\
     guardrail_inputs (st_trace (handled w message st)) =
     guardrail_inputs (st_trace st) ++
       List.repeat (st_history st ++ [user_turn message]) k).
Proof.
  split; [apply trace_handled_prefix|].
  rewrite guardrail_inputs_handled.
  destruct (accepts w _ _); [exists 2%nat|exists 1%nat]; split; [lia| |lia|];
    reflexivity.
Qed.


(* ===================================================================== *)
(** ** The accepted path *)
(* ===================================================================== *)

(** C2, as stated, fails: the guardrail accepts, the stream produces the
    non-empty text [" "], and what is displayed is not that text but
    the fallback notice. *)
Lemma whitespace_reply_is_not_displayed :
  accepts w_space (guardrail_runs (st_trace session0))
          (st_history session0 ++ [user_turn math_question]) = true /\
  join (text_deltas
          (stream_events
             (triage_model w_space
                (st_history session0 ++ [user_turn math_question])))) <> [] /\
  displayed (st_trace (handled w_space math_question session0)) = Some FALLBACK /\
  displayed (st_trace (handled w_space math_question session0)) <>
  Some (join (text_deltas
                (stream_events
                   (triage_model w_space
                      (st_history session0 ++ [user_turn math_question]))))).
Proof.
  split; [reflexivity|].
  split; [vm_compute; discriminate|].
  split; [vm_compute; reflexivity|vm_compute; discriminate].
Qed.

(** C2, amended.  When the guardrail accepts, the streamed run ends
    without a fault with a final output, and the accumulated text is
    not whitespace-only, the fragments pushed to the front end are
    exactly the text deltas of the stream, in order, the final content
    of the message is their concatenation, and that text is recorded as
    the one assistant turn. *)
Theorem streamed_reply_is_concatenation
    (w : World) (message : str) (st : State) (v1 v2 : HomeworkOutput) :
  let h := st_history st ++ [user_turn message] in
  let n := guardrail_runs (st_trace st) in
  let frags := text_deltas (stream_events (triage_model w h)) in
  guardrail_model w n h = Ok v1 -> is_homework v1 = true ->
  guardrail_model w (S n) h = Ok v2 -> is_homework v2 = true ->
  stream_error (triage_model w h) = None ->
  final_output (triage_model w h) <> None ->
  blank (join frags) = false ->
  tokens_of (st_trace (handled w message st)) = tokens_of (st_trace st) ++ frags /\
  displayed (st_trace (handled w message st)) = Some (join frags) /\
  st_history (handled w message st) = h ++ [assistant_turn (join frags)].
Proof.
  intros h n frags H1 B1 H2 B2 He Hf Hb.
  destruct (exit_streamed w n h v1 v2 H1 B1 H2 B2 He) as [Hx Ht].
  fold frags in Hx, Ht. rewrite Hb in Hx.
  destruct (final_output (triage_model w h)) as [fo|]; [|contradiction].
  simpl in Hx.
  split; [rewrite tokens_of_handled; fold h n; rewrite Ht; reflexivity|].
  split.
  - unfold displayed. rewrite screen_handled. fold h n. rewrite Hx. reflexivity.
  - rewrite history_handled. fold h n. rewrite Hx. reflexivity.
Qed.

Lemma streamed_reply_is_concatenation_witness :
  displayed (st_trace (handled w_math math_question session0))
    = Some (py "x = 2") /\
  st_history (handled w_math math_question session0)
    = [user_turn math_question; assistant_turn (py "x = 2")].
Proof.
  pose proof (streamed_reply_is_concatenation
                w_math math_question session0
                (mkHomeworkOutput true (py "math"))
                (mkHomeworkOutput true (py "math"))
                eq_refl eq_refl eq_refl eq_refl eq_refl
                ltac:(discriminate) ltac:(vm_compute; reflexivity)) as H.
  split; [exact (proj1 (proj2 H))|exact (proj2 (proj2 H))].
Defined.

(** C3, as stated, fails: the guardrail accepts, the stream carries no
    text fragment and the run has no final output, but the stream ends
    by raising, and what is displayed is the error notice, not the
    fallback notice. *)
Lemma raising_empty_stream_shows_error_notice :
  accepts w_mute (guardrail_runs (st_trace session0))
          (st_history session0 ++ [user_turn math_question]) = true /\
  text_deltas
    (stream_events
       (triage_model w_mute (st_history session0 ++ [user_turn math_question])))
    = [] /\
  final_output
    (triage_model w_mute (st_history session0 ++ [user_turn math_question]))
    = None /\
  displayed (st_trace (handled w_mute math_question session0))
    = Some (error_notice stream_broken) /\
  displayed (st_trace (handled w_mute math_question session0)) <> Some FALLBACK.
Proof.
  split; [reflexivity|].
  split; [reflexivity|].
  split; [reflexivity|].
  split; [vm_compute; reflexivity|vm_compute; discriminate].
Qed.

(** C3, amended.  When the guardrail accepts and the streamed run ends
    without a fault, then if the stream carried no text fragment, or
    only whitespace, or the final output is absent, the message shows
    the fixed fallback notice and the history is left with the user turn
    only. *)
Theorem empty_stream_shows_fallback
    (w : World) (message : str) (st : State) (v1 v2 : HomeworkOutput) :
  let h := st_history st ++ [user_turn message] in
  let n := guardrail_runs (st_trace st) in
  let frags := text_deltas (stream_events (triage_model w h)) in
  guardrail_model w n h = Ok v1 -> is_homework v1 = true ->
  guardrail_model w (S n) h = Ok v2 -> is_homework v2 = true ->
  stream_error (triage_model w h) = None ->
  (frags = [] \/
   forallb isspace (join frags) = true \/
   final_output (triage_model w h) = None) ->
  displayed (st_trace (handled w message st)) = Some FALLBACK /\
  st_history (handled w message st) = h /\
  assistant_turns (st_history (handled w message st))
    = assistant_turns (st_history st).
Proof.
  intros h n frags H1 B1 H2 B2 He Hcase.
  destruct (exit_streamed w n h v1 v2 H1 B1 H2 B2 He) as [Hx _].
  fold frags in Hx.
  assert (Hguard : match final_output (triage_model w h) with
                   | None => true | Some _ => false end
                   || blank (join frags) = true).
  { destruct Hcase as [E|[E|E]].
    - rewrite E. apply orb_true_r.
    - apply blank_spec in E. rewrite E. apply orb_true_r.
    - rewrite E. reflexivity. }
  rewrite Hguard in Hx.
  assert (Hh : st_history (handled w message st) = h)
    by (rewrite history_handled; fold h n; rewrite Hx; apply app_nil_r).
  split.
  - unfold displayed. rewrite screen_handled. fold h n. rewrite Hx. reflexivity.
  - split; [exact Hh|]. rewrite Hh. apply assistant_turns_user.
Qed.

Lemma empty_stream_shows_fallback_witness :
  displayed (st_trace (handled w_silent math_question session0)) = Some FALLBACK /\
  st_history (handled w_silent math_question session0) = [user_turn math_question].
Proof.
  pose proof (empty_stream_shows_fallback
                w_silent math_question session0
                (mkHomeworkOutput true (py "history"))
                (mkHomeworkOutput true (py "history"))
                eq_refl eq_refl eq_refl eq_refl eq_refl
                (or_introl eq_refl)) as H.
  split; [exact (proj1 H)|exact (proj1 (proj2 H))].
Defined.

(* ===================================================================== *)
(** ** Faults *)
(* ===================================================================== *)




(** C8.  Asking a question that the guardrail rejects every time, any
    number of times in a row, makes the history grow by that many user
    turns and by nothing else: no assistant turn accumulates. *)
Theorem repeated_rejection_adds_user_turns_only
    (w : World) (question : str) (n : nat) (st : State) :
  (forall i : nat,
     (i < n)%nat ->
     exists v : HomeworkOutput,
       guardrail_model w (guardrail_runs (st_trace st) + i)
                       (st_history st ++ List.repeat (user_turn question) (S i))
       = Ok v /\
       is_homework v = false) ->
  fst (on_messages w (List.repeat question n) st) = Ok tt /\
  st_history (snd (on_messages w (List.repeat question n) st))
    = st_history st ++ List.repeat (user_turn question) n /\
  assistant_turns (st_history (snd (on_messages w (List.repeat question n) st)))
    = assistant_turns (st_history st).
Proof.
  revert st. induction n as [|n IH]; intros st H.
  - simpl. rewrite app_nil_r. repeat split.
  - change (List.repeat question (S n)) with (question :: List.repeat question n).
    rewrite on_messages_cons.
    destruct (H 0%nat ltac:(lia)) as (v & Hv & Hb).
    rewrite Nat.add_0_r in Hv.
    change (List.repeat (user_turn question) 1) with [user_turn question] in Hv.
    assert (Hh : st_history (handled w question st)
                 = st_history st ++ [user_turn question])
      by (rewrite (handled_rejected w question st v Hv Hb); reflexivity).
    assert (Hr : guardrail_runs (st_trace (handled w question st))
                 = S (guardrail_runs (st_trace st))).
    { rewrite guardrail_runs_handled. unfold accepts. rewrite Hv, Hb. lia. }
    destruct (IH (handled w question st)) as (R1 & R2 & R3).
    { intros i Hi. destruct (H (S i) ltac:(lia)) as (v' & Hv' & Hb').
      exists v'. split; [|exact Hb'].
      rewrite Hr, Hh, <- app_assoc.
      replace (S (guardrail_runs (st_trace st)) + i)%nat
        with (guardrail_runs (st_trace st) + S i)%nat by lia.
      exact Hv'. }
    split; [exact R1|]. split.
    + rewrite R2, Hh, <- app_assoc. reflexivity.
    + rewrite R3, Hh. apply assistant_turns_user.
Qed.

Lemma repeated_rejection_adds_user_turns_only_witness :
  st_history (snd (on_messages w_off_topic (List.repeat movie_question 3) session0))
    = List.repeat (user_turn movie_question) 3 /\
  assistant_turns
    (st_history (snd (on_messages w_off_topic (List.repeat movie_question 3) session0)))
    = 0%nat.
Proof.
  assert (Hrej : forall i : nat,
             (i < 3)%nat ->
             exists v : HomeworkOutput,
               guardrail_model w_off_topic (guardrail_runs (st_trace session0) + i)
                 (st_history session0 ++ List.repeat (user_turn movie_question) (S i))
               = Ok v /\
               is_homework v = false).
  { intros i _. exists (mkHomeworkOutput false (py "not homework")).
    split; reflexivity. }
  pose proof (repeated_rejection_adds_user_turns_only
                w_off_topic movie_question 3 session0 Hrej) as H.
  split; [exact (proj1 (proj2 H))|exact (proj2 (proj2 H))].
Defined.

(* ===================================================================== *)
(** ** Start-up *)
(* ===================================================================== *)

(** C6.  With [GEMINI_API_KEY] absent from the process environment
    (the [.env] file loaded), the top-level statements of lines 17-27
    would raise the [ValueError] that names the missing variable; but
    the file as shipped does not compile, so importing the module
    raises the [SyntaxError] of lines 125-127 before any of them runs,
    and never that [ValueError]. *)
Theorem import_stops_before_the_credential_check
    (dotenv environ : gmap string str) :
  os_getenv (load_dotenv dotenv environ) "GEMINI_API_KEY" = None ->
  module_init dotenv environ = Raise (mkException "ValueError" KEY_NOT_FOUND) /\
  import_module dotenv environ = Raise NO_HANDLER /\
  import_module dotenv environ <> Raise (mkException "ValueError" KEY_NOT_FOUND).
Proof.
  intros Habsent.
  assert (Himport : import_module dotenv environ = Raise NO_HANDLER)
    by reflexivity.
  split; [unfold module_init; cbv zeta; rewrite Habsent; reflexivity|].
  split; [exact Himport|].
  rewrite Himport. unfold NO_HANDLER. intros E. inversion E.
Qed.

Lemma import_stops_before_the_credential_check_witness :
  module_init ∅ {[ "PATH"%string := py "/usr/bin" ]}
    = Raise (mkException "ValueError" KEY_NOT_FOUND) /\
  import_module ∅ {[ "PATH"%string := py "/usr/bin" ]} = Raise NO_HANDLER.
Proof.
  assert (Habsent : os_getenv (load_dotenv ∅ {[ "PATH"%string := py "/usr/bin" ]})
                              "GEMINI_API_KEY" = None)
    by (vm_compute; reflexivity).
  pose proof (import_stops_before_the_credential_check
                ∅ {[ "PATH"%string := py "/usr/bin" ]} Habsent) as H.
  split; [exact (proj1 H)|exact (proj1 (proj2 H))].
Defined.

(* ===================================================================== *)
(** ** How often the guardrail runs *)
(* ===================================================================== *)

(** C10, as stated, fails: for an accepted message the guardrail agent
    is run twice, once by the handler and once for the triage agent's
    declared input guardrail. *)
Lemma accepted_message_runs_guardrail_twice :
  guardrail_invocations w_math math_question session0 <> 1%nat.
Proof. vm_compute. discriminate. Qed.

(** C10, amended.  The handler runs the guardrail agent itself, first,
    on every message; when that run accepts, the streamed triage run
    evaluates the guardrail the triage agent declares once more, so the
    guardrail agent runs twice for an accepted message and once
    otherwise. *)
Theorem guardrail_runs_once_or_twice (w : World) (message : str) (st : State) :
  guardrail_invocations w message st =
  (1 + (if accepts w (guardrail_runs (st_trace st))
                   (st_history st ++ [user_turn message])
        then length (agent_input_guardrails triage_agent)
        else 0))%nat /\
  exists rest : Trace,
    st_trace (handled w message st) =
    st_trace st ++
      [HistoryAppend (user_turn message); MessageSend placeholder;
       RunnerRun "Guardrail check" (st_history st ++ [user_turn message])]
      ++ rest.
Proof.
  split; [|apply trace_handled_prefix].
  unfold guardrail_invocations. rewrite guardrail_runs_handled.
  destruct (accepts w _ _); simpl; lia.
Qed.

(* ===================================================================== *)
(** ** Whole sessions *)
(* ===================================================================== *)

Section Sessions.

Variable w : World.

Lemma on_chat_start_run (st : State) :
  on_chat_start st =
  (Ok tt,
   mkState [] (mkMessage WELCOME AUTHOR)
           (st_trace st ++
              [SessionSet "history" []; MessageSend (mkMessage WELCOME AUTHOR)])).
Proof.
  unfold on_chat_start, bind, session_set_history, Message_new, msg_send, emit.
  simpl. rewrite <- app_assoc. reflexivity.
Qed.

Lemma streamed_runs_app (tr tr' : Trace) :
  streamed_runs (tr ++ tr') = (streamed_runs tr + streamed_runs tr')%nat.
Proof. unfold streamed_runs. rewrite List.filter_app. apply length_app. Qed.


Lemma streamed_runs_tokens (toks : list str) :
  streamed_runs (map MessageStreamToken toks) = 0%nat.
Proof. induction toks as [|t toks IH]; [reflexivity|exact IH]. Qed.


Lemma streamed_runs_during (n : nat) (h : History) :
  streamed_runs (during w n h) = if accepts w n h then 1%nat else 0%nat.
Proof.
  unfold during, accepts.
  destruct (guardrail_model w n h) as [v1|e]; [|reflexivity].
  destruct (is_homework v1); [|reflexivity].
  destruct (guardrail_model w (S n) h) as [v2|e]; [|reflexivity].
  destruct (is_homework v2); [|reflexivity].
  change (S (streamed_runs
               (map MessageStreamToken
                    (text_deltas (stream_events (triage_model w h))))) = 1%nat).
  rewrite streamed_runs_tokens. reflexivity.
Qed.

Lemma streamed_runs_closing (x : Exit) : streamed_runs (closing x) = 0%nat.
Proof. destruct x; reflexivity. Qed.



Lemma user_texts_app (h h' : History) :
  user_texts (h ++ h') = user_texts h ++ user_texts h'.
Proof. apply omap_app. Qed.

Lemma user_texts_reply (x : Exit) : user_texts (reply x) = [].
Proof. destruct x; reflexivity. Qed.

Lemma answers_follow_user (h : History) (text : str) :
  forall b : bool, answers_follow b (h ++ [user_turn text]) = answers_follow b h.
Proof.
  induction h as [|t h IH]; intros b; simpl; [reflexivity|].
  rewrite IH. reflexivity.
Qed.

Lemma answers_follow_exchange (h : History) (text answer : str) :
  forall b : bool,
    answers_follow b (h ++ [user_turn text; assistant_turn answer])
    = answers_follow b h.
Proof.
  induction h as [|t h IH]; intros b; simpl; [reflexivity|].
  rewrite IH. reflexivity.
Qed.

Lemma no_blank_answers_app (h h' : History) :
  no_blank_answers (h ++ h') = no_blank_answers h && no_blank_answers h'.
Proof. apply forallb_app. Qed.

Lemma no_blank_answers_reply (n : nat) (h : History) :
  no_blank_answers (reply (exit_of w n h)) = true.
Proof.
  destruct (exit_of w n h) as [|text| |e] eqn:Hx; try reflexivity.
  destruct (exit_delivered w n h text Hx) as (_ & _ & Hb).
  unfold no_blank_answers, answer_has_text. simpl. rewrite Hb. reflexivity.
Qed.


Lemma text_deltas_cons (event : StreamEvent) (rest : list StreamEvent) :
  text_deltas (event :: rest) =
  match text_delta event with
  | Some delta => delta :: text_deltas rest
  | None => text_deltas rest
  end.
Proof. reflexivity. Qed.

Lemma text_deltas_text_events (events : list StreamEvent) :
  text_deltas (List.filter is_text_event events) = text_deltas events.
Proof.
  induction events as [|event rest IH]; [reflexivity|].
  change (List.filter is_text_event (event :: rest))
    with (if is_text_event event
          then event :: List.filter is_text_event rest
          else List.filter is_text_event rest).
  unfold is_text_event at 1.
  destruct (text_delta event) as [delta|] eqn:Hd;
    rewrite ?text_deltas_cons, ?Hd, IH; reflexivity.
Qed.

End Sessions.

(** What one handled message does to the two history invariants. *)
Lemma answers_follow_handled (w : World) (message : str) (st : State) (b : bool) :
  answers_follow b (st_history (handled w message st))
  = answers_follow b (st_history st).
Proof.
  rewrite history_handled.
  destruct (exit_of w _ _) as [|text| |e]; simpl reply;
    rewrite ?app_nil_r, <- ?app_assoc.
  2: apply answers_follow_exchange.
  all: apply answers_follow_user.
Qed.

Lemma no_blank_answers_handled (w : World) (message : str) (st : State) :
  no_blank_answers (st_history (handled w message st))
  = no_blank_answers (st_history st).
Proof.
  rewrite history_handled, !no_blank_answers_app, no_blank_answers_reply.
  change (no_blank_answers [user_turn message]) with true.
  rewrite !andb_true_r. reflexivity.
Qed.

(** X3.  [on_chat_start] forgets whatever the session held: it leaves
    an empty history, shows the welcome message and runs no model, and
    the guardrail run of the message that follows sees that message
    alone. *)
Theorem chat_start_resets_the_conversation
    (w : World) (message : str) (st : State) :
  fst (on_chat_start st) = Ok tt /\
  st_history (snd (on_chat_start st)) = [] /\
  screen (st_trace (snd (on_chat_start st))) = WELCOME :: screen (st_trace st) /\
  guardrail_runs (st_trace (snd (on_chat_start st)))
    = guardrail_runs (st_trace st) /\
  exists rest : Trace,
    st_trace (handled w message (snd (on_chat_start st))) =
    st_trace st ++
      [SessionSet "history" []; MessageSend (mkMessage WELCOME AUTHOR);
       HistoryAppend (user_turn message); MessageSend placeholder;
       RunnerRun "Guardrail check" [user_turn message]]
      ++ rest.
Proof.
  destruct (trace_handled_prefix w message (snd (on_chat_start st))) as [rest Hrest].
  rewrite on_chat_start_run in *. cbn [fst snd st_history st_trace] in *.
  split; [reflexivity|]. split; [reflexivity|].
  split; [rewrite screen_app; reflexivity|].
  split; [rewrite guardrail_runs_app; cbn; lia|].
  exists rest. rewrite Hrest, <- app_assoc. reflexivity.
Qed.

(** X4.  The streamed triage run is started for a message exactly when
    the handler's own guardrail run accepted it: never after a
    rejection, never after a guardrail fault, and never twice. *)
Theorem triage_runs_only_when_accepted (w : World) (message : str) (st : State) :
  streamed_runs (st_trace (handled w message st)) =
  (streamed_runs (st_trace st) +
   (if accepts w (guardrail_runs (st_trace st))
               (st_history st ++ [user_turn message])
    then 1 else 0))%nat.
Proof.
  rewrite handled_eq. cbv zeta. cbn [st_trace].
  rewrite !streamed_runs_app, streamed_runs_during, streamed_runs_closing.
  change (streamed_runs [HistoryAppend (user_turn message); MessageSend placeholder])
    with 0%nat.
  lia.
Qed.

(** X5.  For an accepted message whose stream ends without raising, an
    assistant turn is recorded exactly when a final output is present
    and the streamed text has a character that is not whitespace. *)
Theorem answer_recorded_iff_text
    (w : World) (message : str) (st : State) (v1 v2 : HomeworkOutput) :
  let h := st_history st ++ [user_turn message] in
  let n := guardrail_runs (st_trace st) in
  let frags := text_deltas (stream_events (triage_model w h)) in
  guardrail_model w n h = Ok v1 -> is_homework v1 = true ->
  guardrail_model w (S n) h = Ok v2 -> is_homework v2 = true ->
  stream_error (triage_model w h) = None ->
  (assistant_turns (st_history (handled w message st))
     = S (assistant_turns (st_history st)) <->
   final_output (triage_model w h) <> None /\
   forallb isspace (join frags) = false).
Proof.
  intros h n frags H1 B1 H2 B2 He.
  destruct (exit_streamed w n h v1 v2 H1 B1 H2 B2 He) as [Hx _].
  fold frags in Hx.
  rewrite history_handled. fold h n. rewrite Hx.
  pose proof (blank_spec (join frags)) as Hspec.
  destruct (final_output (triage_model w h)) as [fo|];
    destruct (blank (join frags)) eqn:B; simpl orb; cbv iota; simpl reply;
    rewrite ?app_nil_r, ?assistant_turns_app; unfold h;
    rewrite assistant_turns_user.
  - split; [lia|]. intros [_ Hns]. rewrite (proj1 Hspec eq_refl) in Hns.
    discriminate.
  - change (assistant_turns [assistant_turn (join frags)]) with 1%nat.
    split; [intros _|lia]. split; [discriminate|].
    destruct (forallb isspace (join frags)); [|reflexivity].
    specialize (proj2 Hspec eq_refl). discriminate.
  - split; [lia|]. intros [Hf _]. contradiction.
  - split; [lia|]. intros [Hf _]. contradiction.
Qed.

Lemma answer_recorded_iff_text_witness :
  assistant_turns (st_history (handled w_math math_question session0)) = 1%nat <->
  final_output (triage_model w_math [user_turn math_question]) <> None /\
  forallb isspace (py "x = 2") = false.
Proof.
  exact (answer_recorded_iff_text
           w_math math_question session0
           (mkHomeworkOutput true (py "math")) (mkHomeworkOutput true (py "math"))
           eq_refl eq_refl eq_refl eq_refl eq_refl).
Defined.

(** X6.  The handler uses the stream only through its text deltas, the
    exception that ends it and whether a final output exists: two
    worlds that agree on those (and on the guardrail) leave the same
    state, so the content of [result.final_output] and the events that
    are not text deltas never show. *)
Theorem reply_depends_on_deltas_only
    (w w' : World) (message : str) (st : State) :
  let h := st_history st ++ [user_turn message] in
  (forall n : nat, guardrail_model w n h = guardrail_model w' n h) ->
  text_deltas (stream_events (triage_model w h))
    = text_deltas (stream_events (triage_model w' h)) ->
  stream_error (triage_model w h) = stream_error (triage_model w' h) ->
  (final_output (triage_model w h) = None <->
   final_output (triage_model w' h) = None) ->
  handled w message st = handled w' message st.
Proof.
  intros h Hg Hd He Hf.
  rewrite !handled_eq. cbv zeta. fold h.
  set (n := guardrail_runs (st_trace st)).
  assert (Hx : exit_of w n h = exit_of w' n h).
  { unfold exit_of. rewrite <- (Hg n), <- (Hg (S n)), <- Hd, <- He.
    destruct (final_output (triage_model w h)) as [fo|];
      destruct (final_output (triage_model w' h)) as [fo'|]; try reflexivity.
    - specialize (proj2 Hf eq_refl). discriminate.
    - specialize (proj1 Hf eq_refl). discriminate. }
  assert (Hdur : during w n h = during w' n h).
  { unfold during. rewrite <- (Hg n), <- (Hg (S n)), <- Hd. reflexivity. }
  rewrite Hx, Hdur. reflexivity.
Qed.

Lemma reply_depends_on_deltas_only_witness :
  handled w_math math_question session0
  = handled w_math_other_final math_question session0.
Proof.
  apply (reply_depends_on_deltas_only w_math w_math_other_final
                                      math_question session0).
  - intros n. reflexivity.
  - vm_compute. reflexivity.
  - reflexivity.
  - split; discriminate.
Defined.



(** X8.  Whatever becomes of the messages of a session (rejected,
    answered, fallen back or faulted), the history only grows at its
    end and every user message is recorded, in the order received. *)
Theorem every_user_message_is_recorded
    (w : World) (messages : list str) (st : State) :
  (exists added : History,
     st_history (snd (on_messages w messages st)) = st_history st ++ added) /\
  user_texts (st_history (snd (on_messages w messages st)))
    = user_texts (st_history st) ++ messages.
Proof.
  revert st. induction messages as [|message rest IH]; intros st.
  - simpl. split; [exists []|]; rewrite app_nil_r; reflexivity.
  - rewrite on_messages_cons.
    destruct (IH (handled w message st)) as [[added Ha] Hu].
    split.
    + rewrite Ha, history_handled, <- !app_assoc. eexists. reflexivity.
    + rewrite Hu, history_handled, !user_texts_app, user_texts_reply.
      change (user_texts [user_turn message]) with [message].
      rewrite app_nil_r, <- app_assoc. reflexivity.
Qed.

(** X10.  If every assistant turn of the history comes right after a
    user turn, this is still so after any sequence of messages: the
    handler never records an answer without its question, nor two
    answers in a row. *)
Theorem answers_always_follow_questions
    (w : World) (messages : list str) (st : State) :
  answers_follow false (st_history st) = true ->
  answers_follow false (st_history (snd (on_messages w messages st))) = true.
Proof.
  revert st. induction messages as [|message rest IH]; intros st Hinv.
  - exact Hinv.
  - rewrite on_messages_cons. apply IH.
    rewrite answers_follow_handled. exact Hinv.
Qed.

Lemma answers_always_follow_questions_witness :
  answers_follow false
    (st_history
       (snd (on_messages w_short [math_question; movie_question; math_question]
                         session0))) = true.
Proof.
  apply (answers_always_follow_questions
           w_short [math_question; movie_question; math_question] session0).
  reflexivity.
Defined.

(** X11.  If no assistant turn of the history is empty or
    whitespace-only, this is still so after any sequence of messages:
    the guard of line 150 keeps blank answers out of the history. *)
Theorem no_blank_answer_is_recorded
    (w : World) (messages : list str) (st : State) :
  no_blank_answers (st_history st) = true ->
  no_blank_answers (st_history (snd (on_messages w messages st))) = true.
Proof.
  revert st. induction messages as [|message rest IH]; intros st Hinv.
  - exact Hinv.
  - rewrite on_messages_cons. apply IH.
    rewrite no_blank_answers_handled. exact Hinv.
Qed.

Lemma no_blank_answer_is_recorded_witness :
  no_blank_answers
    (st_history (snd (on_messages w_space [math_question; math_question] session0)))
  = true.
Proof.
  apply (no_blank_answer_is_recorded w_space [math_question; math_question] session0).
  reflexivity.
Defined.

(** X12.  Over a session the guardrail agent is run at least once and
    at most twice per message received. *)
Theorem guardrail_runs_per_session
    (w : World) (messages : list str) (st : State) :
  (guardrail_runs (st_trace st) + length messages
   <= guardrail_runs (st_trace (snd (on_messages w messages st))))%nat /\
  (guardrail_runs (st_trace (snd (on_messages w messages st)))
   <= guardrail_runs (st_trace st) + 2 * length messages)%nat.
Proof.
  revert st. induction messages as [|message rest IH]; intros st.
  - simpl. lia.
  - rewrite on_messages_cons.
    destruct (IH (handled w message st)) as [Hlo Hhi].
    rewrite guardrail_runs_handled in Hlo, Hhi.
    destruct (accepts w _ _); simpl length; lia.
Qed.


(** X14.  The streaming loop looks at text-delta events only: run on a
    stream or on the stream with every other event removed, it pushes
    the same tokens, accumulates the same text and ends the same way. *)
Theorem stream_loop_ignores_other_events
    (events : list StreamEvent) (err : option PyException) (acc : str)
    (st : State) :
  stream_loop events err acc st
  = stream_loop (List.filter is_text_event events) err acc st.
Proof.
  rewrite !stream_loop_run, text_deltas_text_events. reflexivity.
Qed.
